(** * examples/esmif.ipynb: the ESM-IF1 scoring notebook

    The notebook has three code cells.  This development keeps two views of
    it side by side:

    - [Source]: the text of the cells, line by line, with the lexical
      notions Python applies to it (comment lines, keywords);
    - [Py], [Extern], [Notebook]: the statements of the cells as programs
      of a state-and-exception monad over the interpreter state, with the
      external collaborators (torch, esm, models.score_esmif,
      models.sample_esmif) gathered in a record [World];
    - [Expected], [Exec]: what a run is expected to do, and the notions
      used to reason about runs.

    The properties of the notebook come last, numbered as the claims they
    settle (C1 to C10). *)

From Stdlib Require Import String Ascii List ZArith Bool Lia.
From stdpp Require Import base option list strings gmap.

Local Open Scope string_scope.
Local Open Scope list_scope.
Set Warnings "-register-all".

(** ** The text of the notebook *)

Module Source.

(** The double-quote character, which delimits every string literal of the
    notebook. *)
Definition dq : string := String "034"%char EmptyString.

(** A Python string literal as it is spelled in the source. *)
Definition lit (s : string) : string := dq +:+ s +:+ dq.

(** *** Literals of the second cell *)

Definition pdb_path : string := "../pdbs/NbALFA_ALFAtag_AF3.pdb".

Definition seq0 : string :=
  "SGEVQLQESGGGLVQPGGSLRLSCTASGVTISALNAMAMGWYRQAPGERRVMVAAVSERGNAMYRESVQGRFTVTRDFTNKMVSLQMDNLKPEDTAVYYCHVLEDRVDSFHDYWGQGTQVTVSS".
Definition seq1 : string :=
  "KGQVQLQQSAELALARMSCKASYTFTSQAPGKGLEWVSAITWNELARPGASVKMSGHIDYADSVKGRFSGHIDYADSVKGRFTIPGASVKMSGTEKMSCTAVYYCAKYPGQVQLQQSAELAASS".
Definition seq2 : string :=
  "ARPGASVNELARPGASVKMSGHIDYAKMSCKASGYTFTSQAPGLEWVSAITWNELKASGYFTSQAPLQMLYLAVYYCAKPYYGSHVWGAVSAITWGVQLYAVAKYSRDNSKNTTVTVGTTVTVS".
Definition seq3 : string :=
  "PGLRAEDTAVYYCAKYPYELARPGYTFTSQAPGKGLGSHWYFDVWWYFDLYQMNSLRATIRDNSKNTWVSEVWGAGTASKMSCKASGGSVKMEDTAVYYCAKYPYYGSHGAGTDNSKNTVVTVS".
Definition seq4 : string :=
  "ASVRPGLYLQMNSGQVQLQQSALQQSAELYYGSHWYFDVWGAGTTVHIDYADSVKGRFTISRDNSKNTLYLQMNSLRAEDTDVWGAGTTVTEWVNSLRAEDARPGASVKMSGTDSVKGRFTISS".
Definition seq5 : string :=
  "SGEVQLQESGGGLVQPGGSLRLSCTASGVTISALNAMAMGWYRQAPGERRVMVAAVSERGNAMYRESVQGRFTVTRDFTNKMVSLQMDNLKPEDTAVYYCHVLEDRVDSFHDYWGQGTQVTVSS".
Definition seq6 : string :=
  "SGTVQLTESGGGTVAPGGSLTLSAKATGVTISALNAMAWGWYRQRPGERRVAVAAVSERGNAMYREDVRGRWTITRDAANKTVSLEMRDLRPEDTATYYPHVLEDRVDSFHDYWGAGVPVTVVP".
Definition seq7 : string :=
  "IGPVQLVESGGGKVEPGGSLTLEMEAKGVTISALNAMAMGWYRQRPGERRVMVAAVSERGNAMYREDVRGRFRVTKNQRDRRVSLKMNNLKPEDSATYFAHVLEDRVDSFHDYWGKGSVVSVRP".

(** [target_seq_list], in source order. *)
Definition target_seq_list : list string :=
  [seq0; seq1; seq2; seq3; seq4; seq5; seq6; seq7].

(** *** The three cells, one string per source line (line ends dropped) *)

Definition cell1_lines : list string :=
  [ "import os";
    "import sys";
    "";
    "sys.path.append(" +:+ lit ".." +:+ ")";
    "";
    "import esm";
    "import numpy as np";
    "import pandas as pd";
    "import torch";
    "import torch_geometric";
    "import torch_sparse";
    "from torch_geometric.nn import MessagePassing";
    "from tqdm.auto import tqdm";
    "";
    "from models.sample_esmif import sample_complex";
    "from models.score_esmif import score_complex";
    "";
    "device = torch.device(" +:+ lit "cuda" +:+ " if torch.cuda.is_available() else "
      +:+ lit "cpu" +:+ ")";
    "";
    "esmif_model, esmif_alphabet = esm.pretrained.esm_if1_gvp4_t16_142M_UR50()";
    "esmif_model = esmif_model.eval().to(device)" ].

Definition cell2_lines : list string :=
  [ "pdb_path = " +:+ lit pdb_path;
    "target_seq_list = [" ]
  ++ map (fun s => "    " +:+ lit s +:+ ",") target_seq_list ++
  [ "]";
    "entropy, loss, perplexity = score_complex(";
    "    esmif_model,";
    "    esmif_alphabet,";
    "    pdb_path,";
    "    target_seq_list=target_seq_list,";
    ")";
    "entropy.shape, loss, perplexity" ].

Definition cell3_lines : list string :=
  [ "# pdb_path = " +:+ lit "../pdbs/NbALFA_AF3.pdb";
    "# output_path = " +:+ lit "../results/sampled_monomer_esm.fasta";
    "# redisigned_residues = " +:+ lit "1 3 4 5 7 8 9 13 14 15 19 20 21 23 24 25 26 27 39 41 44 45 46 48 50 52 53 67 68 69 72 73 74 75 76 77 78 79 80 81 82 83 84 85 86 88 89 91 92 93 95 97 99 100 102 114 116 118 119 120 121 123 124";
    "";
    "# for batch_num in tqdm(range(2048)):";
    "#     sample_complex(";
    "#         esmif_model,";
    "#         esmif_alphabet,";
    "#         pdb_path,";
    "#         output_path,";
    "#         target_chain_id=" +:+ lit "A" +:+ ",";
    "#         batch_size=32,";
    "#         redesigned_residues=redisigned_residues,";
    "#         omit_aa=" +:+ lit "C" +:+ ",";
    "#         temperature=1.0,";
    "#         padding_length=10,";
    "#         index_offset=batch_num * 32,";
    "#     )" ].

Definition cells : list (list string) := [cell1_lines; cell2_lines; cell3_lines].

(** *** Lexical structure *)

(** Leading blanks of a physical line carry no token. *)
Fixpoint lstrip (s : string) : string :=
  match s with
  | String " "%char r => lstrip r
  | String "009"%char r => lstrip r
  | _ => s
  end.

(** A line whose first non-blank character is [#] is a comment; the
    tokenizer produces nothing for it, nor for an empty line. *)
Definition is_comment_line (s : string) : bool :=
  match lstrip s with
  | String "#"%char _ => true
  | _ => false
  end.

Definition is_blank_line (s : string) : bool :=
  match lstrip s with
  | EmptyString => true
  | _ => false
  end.

(** The lines of a cell that reach the parser. *)
Definition code_lines (ls : list string) : list string :=
  filter (fun s => negb (is_comment_line s || is_blank_line s) = true) ls.

(** [occurs p s]: the text [p] occurs somewhere in [s]. *)
Fixpoint occurs (p s : string) : bool :=
  String.prefix p s ||
  match s with
  | EmptyString => false
  | String _ r => occurs p r
  end.


(** A line opens a compound statement headed by keyword [kw] when [kw] is
    its first token: it is followed by a blank, a colon or an opening
    parenthesis. *)
Definition starts_with_keyword (kw s : string) : bool :=
  let t := lstrip s in
  String.prefix (kw +:+ " ") t || String.prefix (kw +:+ ":") t
  || String.prefix (kw +:+ "(") t || String.eqb kw t.

(** The constructs by which a Python program intercepts an exception. *)
Definition handler_keywords : list string :=
  ["try"; "except"; "finally"; "with"].

Definition has_handler (ls : list string) : bool :=
  existsb (fun s => existsb (fun kw => starts_with_keyword kw s) handler_keywords)
          (code_lines ls).





End Source.


(** ** Values, exceptions and the interpreter state *)

Module Py.

(** The device kinds the notebook can name. *)
Inductive device := Cpu | Cuda.

(** A [torch.nn.Module] object: its mode flag, the device that holds its
    parameters, and the parameters themselves (an opaque payload). *)
Record nn_module := { training : bool; on_device : device; weights : Z }.

Record tensor := { shape : list nat; storage : Z }.

(** A floating-point scalar, kept as its bit pattern: the notebook does no
    arithmetic on it. *)
Inductive scalar := Float64 (bits : Z).

Inductive value :=
| VNone
| VBool (b : bool)
| VStr (s : string)
| VList (xs : list value)
| VTuple (xs : list value)
| VModule (name : string)
| VFunc (qualname : string)
| VDevice (d : device)
| VModel (l : nat)
| VAlphabet (a : Z)
| VTensor (t : tensor)
| VScalar (x : scalar)
| VSize (dims : list nat).

Record exn := { exn_class : string; exn_msg : string }.

Inductive outcome (A : Type) :=
| Ok (a : A)
| Raise (e : exn).
Arguments Ok {A} a.
Arguments Raise {A} e.

(** What the kernel does that is visible outside the notebook's names:
    imports and calls, in the order they happen. *)
Inductive event :=
| EvImport (module : string) (name : option string)
| EvCall (callee : string) (args : list value) (kwargs : list (string * value)).

(** An event together with the exception it ended with, if any. *)
Record entry := { what : event; raised : option exn }.

(** The interpreter state: the names bound in the kernel's namespace, the
    module search path [sys.path], the objects with identity (the loaded
    network lives here and is reached through [VModel]), and the events so
    far. *)
Record state := {
  globals : gmap string value;
  sys_path : list string;
  heap : list nn_module;
  trace : list entry
}.

Definition set_globals (g : gmap string value) (s : state) : state :=
  {| globals := g; sys_path := sys_path s; heap := heap s; trace := trace s |}.
Definition set_sys_path (p : list string) (s : state) : state :=
  {| globals := globals s; sys_path := p; heap := heap s; trace := trace s |}.
Definition set_heap (h : list nn_module) (s : state) : state :=
  {| globals := globals s; sys_path := sys_path s; heap := h; trace := trace s |}.
Definition log (e : event) (r : option exn) (s : state) : state :=
  {| globals := globals s; sys_path := sys_path s; heap := heap s;
     trace := trace s ++ [{| what := e; raised := r |}] |}.

(** How a call that is logged ends. *)
Definition finish {A} (e : event) (r : outcome A) (s : state) : outcome A * state :=
  match r with
  | Ok a => (Ok a, log e None s)
  | Raise x => (Raise x, log e (Some x) s)
  end.

(** A fresh kernel whose search path is [p]. *)
Definition fresh_kernel (p : list string) : state :=
  {| globals := ∅; sys_path := p; heap := []; trace := [] |}.

(** Statements run in state; an exception ends the run and keeps the state
    reached so far. *)
Definition M (A : Type) : Type := state -> outcome A * state.

#[global] Instance M_ret : MRet M := fun A a s => (Ok a, s).
#[global] Instance M_bind : MBind M := fun A B f m s =>
  match m s with
  | (Ok a, s') => f a s'
  | (Raise e, s') => (Raise e, s')
  end.

Definition raise {A} (cls msg : string) : M A :=
  fun s => (Raise {| exn_class := cls; exn_msg := msg |}, s).

(** [try: body except: handler], the construct by which Python code
    intercepts an exception. *)
Definition try_except {A} (body : M A) (handler : exn -> M A) : M A :=
  fun s =>
    match body s with
    | (Ok a, s') => (Ok a, s')
    | (Raise e, s') => handler e s'
    end.

(** Reading a name. *)
Definition get (x : string) : M value :=
  fun s =>
    match globals s !! x with
    | Some v => (Ok v, s)
    | None => (Raise {| exn_class := "NameError"; exn_msg := x |}, s)
    end.

(** [x = v]. *)
Definition assign (x : string) (v : value) : M unit :=
  fun s => (Ok tt, set_globals (<[x := v]> (globals s)) s).

(** The elements of the right-hand side of [x1, ..., xn = v].  Tuples and
    lists are the only iterables the notebook unpacks. *)
Definition unpack (n : nat) (v : value) : M (list value) :=
  match v with
  | VTuple xs | VList xs =>
      if decide (length xs = n) then mret xs
      else raise "ValueError" "wrong number of values to unpack"
  | _ => raise "TypeError" "cannot unpack non-iterable object"
  end.

Fixpoint assign_each (names : list string) (vs : list value) : M unit :=
  match names, vs with
  | x :: names', v :: vs' => assign x v ;; assign_each names' vs'
  | _, _ => mret tt
  end.

(** [x1, ..., xn = v]. *)
Definition assign_tuple (names : list string) (v : value) : M unit :=
  xs ← unpack (length names) v; assign_each names xs.

(** [v.shape]. *)
Definition attr_shape (v : value) : M value :=
  match v with
  | VTensor t => mret (VSize (shape t))
  | _ => raise "AttributeError" "shape"
  end.

(** [sys.path.append(v)], [m] being the value of the name [sys]. *)
Definition sys_path_append (m v : value) : M unit :=
  match m, v with
  | VModule "sys", VStr p =>
      fun s => finish (EvCall "sys.path.append" [v] []) (Ok tt)
                      (set_sys_path (sys_path s ++ [p]) s)
  | VModule "sys", _ => raise "TypeError" "sys.path entry"
  | _, _ => raise "AttributeError" "path"
  end.

(** [torch.device(v)]: the device named by a string.  Building the device
    object does not touch the hardware. *)
Definition torch_device (m v : value) : M value :=
  match m with
  | VModule "torch" =>
      fun s =>
        finish (EvCall "torch.device" [v] [])
          match v with
          | VStr "cpu" => Ok (VDevice Cpu)
          | VStr "cuda" => Ok (VDevice Cuda)
          | _ => Raise {| exn_class := "RuntimeError"; exn_msg := "device string" |}
          end s
  | _ => raise "AttributeError" "device"
  end.

(** [v.eval()]: the module is switched to evaluation mode in place and
    returned. *)
Definition nn_eval (v : value) : M value :=
  match v with
  | VModel l =>
      fun s =>
        match heap s !! l with
        | Some m =>
            finish (EvCall "torch.nn.Module.eval" [v] []) (Ok v)
              (set_heap (<[l := {| training := false;
                                   on_device := on_device m;
                                   weights := weights m |}]> (heap s)) s)
        | None => (Raise {| exn_class := "ReferenceError"; exn_msg := "eval" |}, s)
        end
  | _ => raise "AttributeError" "eval"
  end.

End Py.

(** ** The external collaborators *)

Module Extern.
Import Py.

(** Modelled from the spec: the result of [score_complex], whose defining
    file models/score_esmif.py is not part of the sources at hand.  The
    spec says that the call returns an entropy tensor, a loss scalar and a
    perplexity scalar. *)
Record score_result := {
  entropy : tensor;
  loss : scalar;
  perplexity : scalar
}.

(** The value the caller receives: a 3-tuple. *)
Definition score_value (r : score_result) : value :=
  VTuple [VTensor (entropy r); VScalar (loss r); VScalar (perplexity r)].

(** Everything the notebook reaches outside its own text.  Each field is
    what the corresponding library entry point answers; a field that can
    fail answers with the exception it raises.

    - [find_module path m x]: the import system resolving module [m]
      (and, for [from m import x], the name [x] in it) against [sys.path];
    - [cuda_is_available]: the answer of [torch.cuda.is_available()];
    - [esm_if1_gvp4_t16_142M_UR50]: the pretrained-model loader of [esm],
      which yields the network and its alphabet;
    - [module_to]: moving a network to a device;
    - [score_complex], [sample_complex]: the two helpers of the
      surrounding code base, which receive the objects on the heap and may
      change them;
    - [call_other]: any other imported callable. *)
Record World := {
  find_module : list string -> string -> option string -> option exn;
  cuda_is_available : bool;
  esm_if1_gvp4_t16_142M_UR50 : outcome (nn_module * Z);
  module_to : nn_module -> device -> option exn;
  score_complex :
    list nn_module -> list value -> list (string * value) ->
    outcome score_result * list nn_module;
  sample_complex :
    list nn_module -> list value -> list (string * value) ->
    outcome value * list nn_module;
  call_other :
    string -> list nn_module -> list value -> list (string * value) ->
    outcome value * list nn_module
}.

Definition score_complex_name : string := "models.score_esmif.score_complex".
Definition sample_complex_name : string := "models.sample_esmif.sample_complex".
Definition loader_name : string := "esm.pretrained.esm_if1_gvp4_t16_142M_UR50".

Section Operations.
Variable w : World.

(** [import m as x] ([import m] when [x] is [m]). *)
Definition import_as (m x : string) : M unit :=
  fun s =>
    match find_module w (sys_path s) m None with
    | Some e => finish (EvImport m None) (Raise e) s
    | None =>
        finish (EvImport m None) (Ok tt)
          (set_globals (<[x := VModule m]> (globals s)) s)
    end.

Definition import (m : string) : M unit := import_as m m.

(** [from m import x]. *)
Definition from_import (m x : string) : M unit :=
  fun s =>
    match find_module w (sys_path s) m (Some x) with
    | Some e => finish (EvImport m (Some x)) (Raise e) s
    | None =>
        finish (EvImport m (Some x)) (Ok tt)
          (set_globals (<[x := VFunc (m +:+ "." +:+ x)]> (globals s)) s)
    end.

(** [torch.cuda.is_available()], [m] being the value of the name [torch]. *)
Definition torch_cuda_is_available (m : value) : M bool :=
  match m with
  | VModule "torch" =>
      finish (EvCall "torch.cuda.is_available" [] []) (Ok (cuda_is_available w))
  | _ => raise "AttributeError" "cuda"
  end.

(** [esm.pretrained.esm_if1_gvp4_t16_142M_UR50()], [m] being the value of
    the name [esm]: the network is a new object on the heap. *)
Definition esm_pretrained_load (m : value) : M value :=
  match m with
  | VModule "esm" =>
      fun s =>
        match esm_if1_gvp4_t16_142M_UR50 w with
        | Ok (net, alphabet) =>
            finish (EvCall loader_name [] [])
              (Ok (VTuple [VModel (length (heap s)); VAlphabet alphabet]))
              (set_heap (heap s ++ [net]) s)
        | Raise e => finish (EvCall loader_name [] []) (Raise e) s
        end
  | _ => raise "AttributeError" "pretrained"
  end.

(** [v.to(d)]: the module is moved in place and returned. *)
Definition nn_to (v d : value) : M value :=
  match v, d with
  | VModel l, VDevice dev =>
      fun s =>
        match heap s !! l with
        | Some m =>
            match module_to w m dev with
            | Some e => finish (EvCall "torch.nn.Module.to" [v; d] []) (Raise e) s
            | None =>
                finish (EvCall "torch.nn.Module.to" [v; d] []) (Ok v)
                  (set_heap (<[l := {| training := training m;
                                       on_device := dev;
                                       weights := weights m |}]> (heap s)) s)
            end
        | None => (Raise {| exn_class := "ReferenceError"; exn_msg := "to" |}, s)
        end
  | VModel _, _ => raise "TypeError" "to"
  | _, _ => raise "AttributeError" "to"
  end.

(** A call [f(args, name=value, ...)] of an imported callable [f], with its
    positional and its keyword arguments. *)
Definition call (f : value) (args : list value) (kwargs : list (string * value))
  : M value :=
  match f with
  | VFunc q =>
      fun s =>
        let '(r, h) :=
          if String.eqb q score_complex_name then
            match score_complex w (heap s) args kwargs with
            | (Ok r, h) => (Ok (score_value r), h)
            | (Raise e, h) => (Raise e, h)
            end
          else if String.eqb q sample_complex_name
          then sample_complex w (heap s) args kwargs
          else call_other w q (heap s) args kwargs in
        finish (EvCall q args kwargs) r (set_heap h s)
  | _ => raise "TypeError" "object is not callable"
  end.

End Operations.
End Extern.

(** ** The cells *)

Module Notebook.
Import Py Extern.

Section Cells.
Variable w : World.

(** The statement that binds [device]: the callee [torch.device] is looked
    up first, then the conditional expression is evaluated, the test
    before the branch taken. *)
Definition select_device : M unit :=
  torch ← get "torch";
  torch' ← get "torch";
  avail ← torch_cuda_is_available w torch';
  d ← torch_device torch (VStr (if avail : bool then "cuda" else "cpu"));
  assign "device" d.

(** The statement that binds [esmif_model] and [esmif_alphabet]. *)
Definition load_model : M unit :=
  esm ← get "esm";
  r ← esm_pretrained_load w esm;
  assign_tuple ["esmif_model"; "esmif_alphabet"] r.

(** The statement that rebinds [esmif_model] to the result of [eval] and
    [to]. *)
Definition eval_and_move : M unit :=
  m ← get "esmif_model";
  m1 ← nn_eval m;
  d ← get "device";
  m2 ← nn_to w m1 d;
  assign "esmif_model" m2.

(** First cell: imports, search-path extension, device choice, loading of
    the pretrained network. *)
Definition cell1 : M (option value) :=
  import w "os" ;;
  import w "sys" ;;
  (sys ← get "sys"; sys_path_append sys (VStr "..")) ;;
  import w "esm" ;;
  import_as w "numpy" "np" ;;
  import_as w "pandas" "pd" ;;
  import w "torch" ;;
  import w "torch_geometric" ;;
  import w "torch_sparse" ;;
  from_import w "torch_geometric.nn" "MessagePassing" ;;
  from_import w "tqdm.auto" "tqdm" ;;
  from_import w "models.sample_esmif" "sample_complex" ;;
  from_import w "models.score_esmif" "score_complex" ;;
  select_device ;;
  load_model ;;
  eval_and_move ;;
  mret None.

(** The scoring statement: callee, positional arguments and the keyword
    argument are evaluated left to right, then the call is made and its
    result unpacked into three names. *)
Definition score : M unit :=
  f ← get "score_complex";
  a1 ← get "esmif_model";
  a2 ← get "esmif_alphabet";
  a3 ← get "pdb_path";
  k ← get "target_seq_list";
  r ← call w f [a1; a2; a3] [("target_seq_list", k)];
  assign_tuple ["entropy"; "loss"; "perplexity"] r.

(** The last line of the second cell, an expression: its value is what
    the cell displays.  Only the statement is modelled: the record the
    kernel keeps of what it displayed (the names [_] and [Out]) is the
    kernel's, not the notebook's, and is left out. *)
Definition show_result : M (option value) :=
  e ← get "entropy";
  sh ← attr_shape e;
  l ← get "loss";
  p ← get "perplexity";
  mret (Some (VTuple [sh; l; p])).

(** Second cell: the two literals, the scoring call, and the expression
    whose value is the cell's output. *)
Definition cell2 : M (option value) :=
  assign "pdb_path" (VStr Source.pdb_path) ;;
  assign "target_seq_list" (VList (map VStr Source.target_seq_list)) ;;
  score ;;
  show_result.

(** Third cell: all of its lines are comments, so it holds no statement. *)
Definition cell3 : M (option value) := mret None.

(** Running the cells top to bottom; the outputs of the cells are
    collected.  An exception in a cell stops the run there. *)
Definition run_notebook : M (list (option value)) :=
  o1 ← cell1; o2 ← cell2; o3 ← cell3; mret [o1; o2; o3].

End Cells.
End Notebook.

(** ** What a run is expected to look like *)

Module Expected.
Import Py Extern.

(** The events of the first cell when nothing fails: the imports and the
    search-path extension, then the device choice, the loading of the
    network (the first object on the heap) and its switch to evaluation
    mode on the chosen device. *)
Definition setup_events (cuda : bool) : list event :=
  [ EvImport "os" None;
    EvImport "sys" None;
    EvCall "sys.path.append" [VStr ".."] [];
    EvImport "esm" None;
    EvImport "numpy" None;
    EvImport "pandas" None;
    EvImport "torch" None;
    EvImport "torch_geometric" None;
    EvImport "torch_sparse" None;
    EvImport "torch_geometric.nn" (Some "MessagePassing");
    EvImport "tqdm.auto" (Some "tqdm");
    EvImport "models.sample_esmif" (Some "sample_complex");
    EvImport "models.score_esmif" (Some "score_complex");
    EvCall "torch.cuda.is_available" [] [];
    EvCall "torch.device" [VStr (if cuda then "cuda" else "cpu")] [];
    EvCall loader_name [] [];
    EvCall "torch.nn.Module.eval" [VModel 0] [];
    EvCall "torch.nn.Module.to" [VModel 0; VDevice (if cuda then Cuda else Cpu)] [] ].

(** The arguments of the scoring call: the network, the alphabet the
    loader returned, the structure path, and the sequences by keyword. *)
Definition scoring_args (alphabet : Z) : list value :=
  [VModel 0; VAlphabet alphabet; VStr Source.pdb_path].

Definition scoring_kwargs : list (string * value) :=
  [("target_seq_list", VList (map VStr Source.target_seq_list))].

Definition scoring_event (alphabet : Z) : event :=
  EvCall score_complex_name (scoring_args alphabet) scoring_kwargs.

(** The third cell contributes nothing. *)
Definition sampling_events : list event := [].

Definition notebook_events (cuda : bool) (alphabet : Z) : list event :=
  setup_events cuda ++ [scoring_event alphabet] ++ sampling_events.

(** The entry point an event goes through: the callee of a call, the
    module (and name) of an import. *)
Definition label (e : event) : string :=
  match e with
  | EvCall f _ _ => "call " +:+ f
  | EvImport m None => "import " +:+ m
  | EvImport m (Some x) => "from " +:+ m +:+ " import " +:+ x
  end.

Definition is_call_to (f : string) (e : event) : bool :=
  match e with
  | EvCall g _ _ => String.eqb f g
  | EvImport _ _ => false
  end.

Definition count_calls (f : string) (es : list event) : nat :=
  length (filter (fun e => is_call_to f e = true) es).

(** What outlives a run. *)
Inductive effect :=
| Download (loader : string)
| FileWrite (path : value).

(** The [output_path] a call of [sample_complex] is given: its fourth
    positional argument, or the keyword of that name. *)
Definition output_path_of (args : list value) (kwargs : list (string * value))
  : option value :=
  match args !! 3%nat with
  | Some v => Some v
  | None => snd <$> List.find (fun kv => String.eqb (fst kv) "output_path") kwargs
  end.

(** What the events of a run leave behind is decided outside the
    notebook, by the import system, by the libraries and by the two
    helpers: an environment says, for each event, what outlives it. *)
Definition environment : Type := event -> list effect.

Definition effects_in (env : environment) (t : list entry) : list effect :=
  flat_map env (map what t).


(** An environment that caches on disk, as an interpreter does on the
    first run from a writable checkout: importing a source module found
    through the search path stores its bytecode beside it, the loader
    stores the weights it downloads, and [sample_complex] writes the file
    named by its [output_path]. *)
Definition caching_environment : environment :=
  fun e =>
    match e with
    | EvImport "models.sample_esmif" _ =>
        [FileWrite (VStr "../models/__pycache__/sample_esmif.cpython-311.pyc")]
    | EvImport "models.score_esmif" _ =>
        [FileWrite (VStr "../models/__pycache__/score_esmif.cpython-311.pyc")]
    | EvImport _ _ => []
    | EvCall f args kwargs =>
        if String.eqb f loader_name then
          [Download f;
           FileWrite (VStr "~/.cache/torch/hub/checkpoints/esm_if1_gvp4_t16_142M_UR50.pt")]
        else if String.eqb f sample_complex_name then
          match output_path_of args kwargs with
          | Some path => [FileWrite path]
          | None => []
          end
        else []
    end.

(** The imports among the events so far. *)
Definition is_import (e : event) : bool :=
  match e with
  | EvImport _ _ => true
  | EvCall _ _ _ => false
  end.

Definition imports_of (t : list entry) : list entry :=
  filter (fun en => is_import (what en) = true) t.

(** A line that is an import statement, or that names the [sys] module. *)
Definition touches_import_system (l : string) : bool :=
  Source.starts_with_keyword "import" l || Source.starts_with_keyword "from" l
  || Source.occurs "sys." l.





(** All the lines of the notebook that reach the parser. *)
Definition all_code_lines : list string :=
  concat (map Source.code_lines Source.cells).

(** A world in which nothing fails, on a machine without GPU. *)
Definition demo_net : nn_module :=
  {| training := true; on_device := Cpu; weights := 142 |}.

Definition demo_result : score_result :=
  {| entropy := {| shape := [8; 124]%nat; storage := 1 |};
     loss := Float64 2;
     perplexity := Float64 3 |}.

Definition demo_world : World :=
  {| find_module := fun _ _ _ => None;
     cuda_is_available := false;
     esm_if1_gvp4_t16_142M_UR50 := Ok (demo_net, 7%Z);
     module_to := fun _ _ => None;
     score_complex := fun h _ _ => (Ok demo_result, h);
     sample_complex := fun h _ _ => (Ok VNone, h);
     call_other := fun _ h _ _ => (Ok VNone, h) |}.

(** The state of a kernel that has run the first cell in [demo_world]. *)
Definition demo_loaded : state :=
  snd (Notebook.cell1 demo_world (fresh_kernel [])).

(** The same world on a machine with a GPU: the loader hands the network
    over on the CPU, so the move of the first cell has something to do. *)
Definition gpu_world : World :=
  {| find_module := find_module demo_world;
     cuda_is_available := true;
     esm_if1_gvp4_t16_142M_UR50 := esm_if1_gvp4_t16_142M_UR50 demo_world;
     module_to := module_to demo_world;
     score_complex := score_complex demo_world;
     sample_complex := sample_complex demo_world;
     call_other := call_other demo_world |}.

(** A world in which nothing the notebook asks for fails. *)
Definition never_fails (w : World) : Prop :=
  (forall path m x, find_module w path m x = None) /\
  (exists net alphabet, esm_if1_gvp4_t16_142M_UR50 w = Ok (net, alphabet)) /\
  (forall m d, module_to w m d = None) /\
  (forall h args kwargs, exists r h',
      score_complex w h args kwargs = (Ok r, h')).

(** Modelled from the spec: what [score_complex], whose defining file
    models/score_esmif.py is not part of the sources at hand, does to the
    network it is given.  The spec says that the sequences are forwarded
    through a frozen pretrained network: the call leaves the mode and the
    parameters of every object as they are. *)
Definition scoring_keeps_network_frozen (w : World) : Prop :=
  forall h args kwargs r h' l m,
    score_complex w h args kwargs = (r, h') ->
    h !! l = Some m ->
    exists m', h' !! l = Some m' /\
               training m' = training m /\ weights m' = weights m.

End Expected.

(** ** Reasoning about runs *)

Module Exec.
Import Py.

(** [wp m s Q]: running [m] from [s] ends in a result and a state that
    satisfy [Q]. *)
Definition wp {A} (m : M A) (s : state) (Q : outcome A * state -> Prop) : Prop :=
  Q (m s).

(** The entry logged for event [e] ending with [r]. *)
Definition ent (e : event) (r : option exn) : entry :=
  {| what := e; raised := r |}.

(** [m] leaves the module search path as it finds it. *)
Definition keeps_sys_path {A} (m : M A) : Prop :=
  forall s, sys_path (snd (m s)) = sys_path s.

(** [m] executes no import. *)
Definition keeps_imports {A} (m : M A) : Prop :=
  forall s, Expected.imports_of (trace (snd (m s))) = Expected.imports_of (trace s).

(** [m] leaves the objects on the heap as it finds them. *)
Definition keeps_heap {A} (m : M A) : Prop :=
  forall s, heap (snd (m s)) = heap s.

End Exec.

(** ** Kernels that are not fresh

    The cells of a notebook can be run again, and out of order.  The
    notions below describe what a cell does to a kernel in any state. *)

Module Kernel.
Import Py Extern.

(** The names each cell assigns, in the order of their first assignment;
    for the third cell, the names its commented-out statements would
    assign. *)
Definition setup_names : list string :=
  [ "os"; "sys"; "esm"; "np"; "pd"; "torch"; "torch_geometric"; "torch_sparse";
    "MessagePassing"; "tqdm"; "sample_complex"; "score_complex"; "device";
    "esmif_model"; "esmif_alphabet" ].

Definition scoring_names : list string :=
  [ "pdb_path"; "target_seq_list"; "entropy"; "loss"; "perplexity" ].

Definition sampling_names : list string :=
  [ "output_path"; "redisigned_residues"; "batch_num" ].

(** The search path an import statement of the first cell is resolved
    against, in a kernel started with path [p]: the two imports above the
    [sys.path.append] line see [p], the ones below it see the extended
    path. *)
Definition resolution_path (p : list string) (m : string) : list string :=
  if String.eqb m "os" || String.eqb m "sys" then p else p ++ [".."].

(** The network as the first cell leaves it. *)
Definition frozen (cuda : bool) (net : nn_module) : nn_module :=
  {| training := false;
     on_device := if cuda then Cuda else Cpu;
     weights := weights net |}.

(** The namespace the first cell leaves when it completes in namespace
    [g], the loaded network being object [l]. *)
Definition setup_bindings (l : nat) (cuda : bool) (alphabet : Z)
    (g : gmap string value) : gmap string value :=
  <["esmif_model" := VModel l]>
    (<["esmif_alphabet" := VAlphabet alphabet]>
    (<["esmif_model" := VModel l]>
    (<["device" := VDevice (if cuda then Cuda else Cpu)]>
    (<["score_complex" := VFunc score_complex_name]>
    (<["sample_complex" := VFunc sample_complex_name]>
    (<["tqdm" := VFunc "tqdm.auto.tqdm"]>
    (<["MessagePassing" := VFunc "torch_geometric.nn.MessagePassing"]>
    (<["torch_sparse" := VModule "torch_sparse"]>
    (<["torch_geometric" := VModule "torch_geometric"]>
    (<["torch" := VModule "torch"]>
    (<["pd" := VModule "pandas"]>
    (<["np" := VModule "numpy"]>
    (<["esm" := VModule "esm"]>
    (<["sys" := VModule "sys"]>
    (<["os" := VModule "os"]> g))))))))))))))).

(** The value the second cell displays for a scoring result. *)
Definition summary (r : score_result) : value :=
  VTuple [VSize (shape (entropy r)); VScalar (loss r); VScalar (perplexity r)].

(** [m] changes the binding of no name outside [names]. *)
Definition binds_only {A} (names : list string) (m : M A) : Prop :=
  forall s x, x ∉ names -> globals (snd (m s)) !! x = globals s !! x.

(** [m] leaves the namespace as it finds it. *)
Definition keeps_globals {A} (m : M A) : Prop :=
  forall s, globals (snd (m s)) = globals s.

(** [m] leaves the namespace as it finds it whenever it raises. *)
Definition binds_nothing_on_raise {A} (m : M A) : Prop :=
  forall s e s', m s = (Raise e, s') -> globals s' = globals s.

(** A world in which moving the network fails. *)
Definition no_device_world : World :=
  {| find_module := find_module Expected.demo_world;
     cuda_is_available := true;
     esm_if1_gvp4_t16_142M_UR50 := esm_if1_gvp4_t16_142M_UR50 Expected.demo_world;
     module_to := fun _ _ =>
       Some {| exn_class := "RuntimeError"; exn_msg := "CUDA error" |};
     score_complex := score_complex Expected.demo_world;
     sample_complex := sample_complex Expected.demo_world;
     call_other := call_other Expected.demo_world |}.

End Kernel.

Import Py Extern Notebook Expected Exec.

(** *** One rule per operation

    A rule for an operation that consults the world has one premise per
    answer. *)

Section Rules.
Variable w : World.

Lemma wp_bind {A B} (m : M A) (f : A -> M B) s Q :
  wp m s (fun rs => match rs with
                    | (Ok a, s') => wp (f a) s' Q
                    | (Raise e, s') => Q (Raise e, s')
                    end) ->
  wp (m ≫= f) s Q.
Proof. unfold wp, mbind, M_bind. destruct (m s) as [[a|e] s']; auto. Qed.

Lemma wp_ret {A} (a : A) s (Q : outcome A * state -> Prop) :
  Q (Ok a, s) -> wp (mret a) s Q.
Proof. auto. Qed.

Lemma wp_get x v s Q :
  globals s !! x = Some v -> Q (Ok v, s) -> wp (get x) s Q.
Proof. unfold wp, get. intros ->. auto. Qed.

Lemma wp_assign x v g p h t Q :
  Q (Ok tt, Build_state (<[x:=v]> g) p h t) ->
  wp (assign x v) (Build_state g p h t) Q.
Proof. auto. Qed.

Lemma wp_assign_pair x y a b g p h t Q :
  Q (Ok tt, Build_state (<[y:=b]> (<[x:=a]> g)) p h t) ->
  wp (assign_tuple [x; y] (VTuple [a; b])) (Build_state g p h t) Q.
Proof. auto. Qed.

Lemma wp_assign_triple x y z a b c g p h t Q :
  Q (Ok tt, Build_state (<[z:=c]> (<[y:=b]> (<[x:=a]> g))) p h t) ->
  wp (assign_tuple [x; y; z] (VTuple [a; b; c])) (Build_state g p h t) Q.
Proof. auto. Qed.

Lemma wp_attr_shape t s Q :
  Q (Ok (VSize (shape t)), s) -> wp (attr_shape (VTensor t)) s Q.
Proof. auto. Qed.

Lemma wp_sys_path_append x g p h t Q :
  Q (Ok tt, Build_state g (p ++ [x]) h
              (t ++ [ent (EvCall "sys.path.append" [VStr x] []) None])) ->
  wp (sys_path_append (VModule "sys") (VStr x)) (Build_state g p h t) Q.
Proof. auto. Qed.

Lemma wp_import_as m x g p h t Q :
  (forall e, find_module w p m None = Some e ->
     Q (Raise e, Build_state g p h (t ++ [ent (EvImport m None) (Some e)]))) ->
  (find_module w p m None = None ->
     Q (Ok tt, Build_state (<[x:=VModule m]> g) p h
                 (t ++ [ent (EvImport m None) None]))) ->
  wp (import_as w m x) (Build_state g p h t) Q.
Proof.
  unfold wp, import_as. cbn. destruct (find_module w p m None); auto.
Qed.

Lemma wp_from_import m x g p h t Q :
  (forall e, find_module w p m (Some x) = Some e ->
     Q (Raise e, Build_state g p h (t ++ [ent (EvImport m (Some x)) (Some e)]))) ->
  (find_module w p m (Some x) = None ->
     Q (Ok tt, Build_state (<[x:=VFunc (m +:+ "." +:+ x)]> g) p h
                 (t ++ [ent (EvImport m (Some x)) None]))) ->
  wp (from_import w m x) (Build_state g p h t) Q.
Proof.
  unfold wp, from_import. cbn. destruct (find_module w p m (Some x)); auto.
Qed.

Lemma wp_torch_cuda_is_available g p h t Q :
  Q (Ok (cuda_is_available w),
     Build_state g p h (t ++ [ent (EvCall "torch.cuda.is_available" [] []) None])) ->
  wp (torch_cuda_is_available w (VModule "torch")) (Build_state g p h t) Q.
Proof. auto. Qed.

Lemma wp_torch_device (b : bool) g p h t Q :
  Q (Ok (VDevice (if b then Cuda else Cpu)),
     Build_state g p h
       (t ++ [ent (EvCall "torch.device" [VStr (if b then "cuda" else "cpu")] [])
                  None])) ->
  wp (torch_device (VModule "torch") (VStr (if b then "cuda" else "cpu")))
     (Build_state g p h t) Q.
Proof. destruct b; auto. Qed.

Lemma wp_esm_pretrained_load g p h t Q :
  (forall e, esm_if1_gvp4_t16_142M_UR50 w = Raise e ->
     Q (Raise e, Build_state g p h (t ++ [ent (EvCall loader_name [] []) (Some e)]))) ->
  (forall net alphabet, esm_if1_gvp4_t16_142M_UR50 w = Ok (net, alphabet) ->
     Q (Ok (VTuple [VModel (length h); VAlphabet alphabet]),
        Build_state g p (h ++ [net]) (t ++ [ent (EvCall loader_name [] []) None]))) ->
  wp (esm_pretrained_load w (VModule "esm")) (Build_state g p h t) Q.
Proof.
  unfold wp, esm_pretrained_load. cbn.
  intros Hr Ho.
  destruct (esm_if1_gvp4_t16_142M_UR50 w) as [[net a]|e];
    [exact (Ho _ _ eq_refl)|exact (Hr _ eq_refl)].
Qed.

Lemma wp_nn_eval l m g p h t Q :
  h !! l = Some m ->
  Q (Ok (VModel l),
     Build_state g p
       (<[l := {| training := false; on_device := on_device m;
                  weights := weights m |}]> h)
       (t ++ [ent (EvCall "torch.nn.Module.eval" [VModel l] []) None])) ->
  wp (nn_eval (VModel l)) (Build_state g p h t) Q.
Proof. unfold wp, nn_eval. cbn. intros ->. auto. Qed.

Lemma wp_nn_to l dev m g p h t Q :
  h !! l = Some m ->
  (forall e, module_to w m dev = Some e ->
     Q (Raise e, Build_state g p h
          (t ++ [ent (EvCall "torch.nn.Module.to" [VModel l; VDevice dev] [])
                     (Some e)]))) ->
  (module_to w m dev = None ->
     Q (Ok (VModel l),
        Build_state g p
          (<[l := {| training := training m; on_device := dev;
                     weights := weights m |}]> h)
          (t ++ [ent (EvCall "torch.nn.Module.to" [VModel l; VDevice dev] [])
                     None]))) ->
  wp (nn_to w (VModel l) (VDevice dev)) (Build_state g p h t) Q.
Proof.
  unfold wp, nn_to. cbn. intros ->. destruct (module_to w m dev); auto.
Qed.

Lemma wp_call_score_complex args kwargs g p h t Q :
  (forall e h', score_complex w h args kwargs = (Raise e, h') ->
     Q (Raise e, Build_state g p h'
          (t ++ [ent (EvCall score_complex_name args kwargs) (Some e)]))) ->
  (forall r h', score_complex w h args kwargs = (Ok r, h') ->
     Q (Ok (score_value r), Build_state g p h'
          (t ++ [ent (EvCall score_complex_name args kwargs) None]))) ->
  wp (call w (VFunc score_complex_name) args kwargs) (Build_state g p h t) Q.
Proof.
  unfold wp, call. cbn.
  intros Hr Ho.
  destruct (score_complex w h args kwargs) as [[r|e] h'];
    [exact (Ho _ _ eq_refl)|exact (Hr _ _ eq_refl)].
Qed.

End Rules.

(** One step of symbolic execution on a goal [wp m s Q]. *)
Ltac wp_step :=
  lazymatch goal with
  | |- wp (mbind _ _) _ _ => apply wp_bind
  | |- wp (mret _) _ _ => apply wp_ret
  | |- wp (get _) _ _ => eapply wp_get; [reflexivity|]
  | |- wp (assign _ _) _ _ => apply wp_assign
  | |- wp (assign_tuple [_; _] _) _ _ => apply wp_assign_pair
  | |- wp (assign_tuple [_; _; _] _) _ _ => apply wp_assign_triple
  | |- wp (attr_shape _) _ _ => apply wp_attr_shape
  | |- wp (sys_path_append _ _) _ _ => apply wp_sys_path_append
  | |- wp (import_as _ _ _) _ _ =>
      apply wp_import_as; [intros ? ?|intros ?]
  | |- wp (from_import _ _ _) _ _ =>
      apply wp_from_import; [intros ? ?|intros ?]
  | |- wp (torch_cuda_is_available _ _) _ _ => apply wp_torch_cuda_is_available
  | |- wp (torch_device _ _) _ _ => apply wp_torch_device
  | |- wp (esm_pretrained_load _ _) _ _ =>
      apply wp_esm_pretrained_load; [intros ? ?|intros ? ? ?]
  | |- wp (nn_eval _) _ _ => eapply wp_nn_eval; [reflexivity|]
  | |- wp (nn_to _ _ _) _ _ =>
      eapply wp_nn_to; [reflexivity|intros ? ?|intros ?]
  | |- wp (call _ _ _ _) _ _ =>
      apply wp_call_score_complex; [intros ? ? ?|intros ? ? ?]
  end; cbv beta iota.

(** Running a program to all of its ends: one goal is left for each point
    at which the world can make it stop, and one for normal completion. *)
Ltac wp_run :=
  unfold run_notebook, cell1, cell2, cell3, select_device, load_model,
    eval_and_move, score, show_result, import, fresh_kernel;
  repeat wp_step.

(** Turning a statement about the pair [rs], the result and final state of
    a run, into a [wp] goal. *)
Ltac wp_of rs :=
  pattern rs; subst rs;
  lazymatch goal with
  | |- ?P (?m ?s) => change (wp m s P)
  end.

(** Looking a name up in a namespace built by assignments on top of an
    unknown one. *)
Ltac solve_lookup :=
  cbn [globals];
  repeat first [rewrite lookup_insert_eq | rewrite lookup_insert_ne by done];
  first [reflexivity | eassumption].

(** [wp_step], for a namespace that is only partly known. *)
Ltac wp_step' :=
  lazymatch goal with
  | |- wp (get _) _ _ => eapply wp_get; [solve_lookup|]; cbv beta iota
  | |- _ => wp_step
  end.

(** *** The shape of a trace *)

(** When only the last entry of a trace can carry an exception, an entry
    that carries one is the last. *)
Lemma only_last_raises (t : list entry) (en : entry) :
  Forall (fun x => raised x = None) t ->
  forall x e, x ∈ t ++ [en] -> raised x = Some e ->
              x = en /\ last (t ++ [en]) = Some en.
Proof.
  intros Hall x e Hin Hr.
  rewrite last_snoc. split; [|reflexivity].
  apply elem_of_app in Hin as [Hin|Hin].
  - rewrite Forall_forall in Hall. apply Hall in Hin. congruence.
  - apply list_elem_of_singleton in Hin. exact Hin.
Qed.

(** *** Operations that leave the search path alone *)

Create HintDb frame.

Lemma keeps_sys_path_bind {A B} (m : M A) (f : A -> M B) :
  keeps_sys_path m -> (forall a, keeps_sys_path (f a)) -> keeps_sys_path (m ≫= f).
Proof.
  intros Hm Hf s. unfold mbind, M_bind.
  specialize (Hm s). destruct (m s) as [[a|e] s']; cbn in *.
  - rewrite Hf. exact Hm.
  - exact Hm.
Qed.

Lemma keeps_sys_path_ret {A} (a : A) : keeps_sys_path (mret a).
Proof. intros s. reflexivity. Qed.

Lemma keeps_sys_path_raise {A} cls msg : keeps_sys_path (@raise A cls msg).
Proof. intros s. reflexivity. Qed.

Lemma keeps_sys_path_get x : keeps_sys_path (get x).
Proof. intros s. unfold get. destruct (globals s !! x); reflexivity. Qed.

Lemma keeps_sys_path_assign x v : keeps_sys_path (assign x v).
Proof. intros s. reflexivity. Qed.

Lemma keeps_sys_path_assign_each names vs : keeps_sys_path (assign_each names vs).
Proof.
  revert vs. induction names as [|x names IH]; intros [|v vs]; cbn;
    try apply keeps_sys_path_ret.
  apply keeps_sys_path_bind; [apply keeps_sys_path_assign|intros _; apply IH].
Qed.

Lemma keeps_sys_path_unpack n v : keeps_sys_path (unpack n v).
Proof.
  destruct v; cbn; try apply keeps_sys_path_raise;
    case_decide; first [apply keeps_sys_path_ret|apply keeps_sys_path_raise].
Qed.

Lemma keeps_sys_path_assign_tuple names v : keeps_sys_path (assign_tuple names v).
Proof.
  apply keeps_sys_path_bind;
    [apply keeps_sys_path_unpack|intros; apply keeps_sys_path_assign_each].
Qed.

Lemma keeps_sys_path_attr_shape v : keeps_sys_path (attr_shape v).
Proof.
  destruct v; first [apply keeps_sys_path_ret|apply keeps_sys_path_raise].
Qed.

Lemma keeps_sys_path_finish {A} e (r : outcome A) s :
  sys_path (finish e r s).2 = sys_path s.
Proof. destruct r; reflexivity. Qed.

Lemma keeps_sys_path_call w f args kwargs : keeps_sys_path (call w f args kwargs).
Proof.
  destruct f; try apply keeps_sys_path_raise.
  intros s. unfold call.
  destruct (String.eqb qualname score_complex_name).
  - destruct (score_complex w (heap s) args kwargs) as [[r|e] h];
      rewrite keeps_sys_path_finish; reflexivity.
  - destruct (if String.eqb qualname sample_complex_name
              then sample_complex w (heap s) args kwargs
              else call_other w qualname (heap s) args kwargs) as [r h].
    rewrite keeps_sys_path_finish. reflexivity.
Qed.

#[export] Hint Resolve keeps_sys_path_ret keeps_sys_path_raise keeps_sys_path_get
  keeps_sys_path_assign keeps_sys_path_assign_tuple keeps_sys_path_attr_shape
  keeps_sys_path_call : frame.

Ltac frame :=
  lazymatch goal with
  | |- keeps_sys_path (mbind _ _) =>
      apply keeps_sys_path_bind; [frame|intros ?; frame]
  | |- _ => auto with frame
  end.

(** *** Statements that execute no import *)

Lemma imports_of_snoc_call t f args kwargs r :
  imports_of (t ++ [ent (EvCall f args kwargs) r]) = imports_of t.
Proof. unfold imports_of. rewrite filter_app. cbn. apply app_nil_r. Qed.

Lemma keeps_imports_finish_call {A} f args kwargs (r : outcome A) s :
  imports_of (trace (finish (EvCall f args kwargs) r s).2) = imports_of (trace s).
Proof. destruct r; apply imports_of_snoc_call. Qed.

Lemma keeps_imports_bind {A B} (m : M A) (f : A -> M B) :
  keeps_imports m -> (forall a, keeps_imports (f a)) -> keeps_imports (m ≫= f).
Proof.
  intros Hm Hf s. unfold mbind, M_bind.
  specialize (Hm s). destruct (m s) as [[a|e] s']; cbn in *.
  - rewrite Hf. exact Hm.
  - exact Hm.
Qed.

Lemma keeps_imports_ret {A} (a : A) : keeps_imports (mret a).
Proof. intros s. reflexivity. Qed.

Lemma keeps_imports_raise {A} cls msg : keeps_imports (@raise A cls msg).
Proof. intros s. reflexivity. Qed.

Lemma keeps_imports_get x : keeps_imports (get x).
Proof. intros s. unfold get. destruct (globals s !! x); reflexivity. Qed.

Lemma keeps_imports_assign x v : keeps_imports (assign x v).
Proof. intros s. reflexivity. Qed.

Lemma keeps_imports_assign_each names vs : keeps_imports (assign_each names vs).
Proof.
  revert vs. induction names as [|x names IH]; intros [|v vs]; cbn;
    try apply keeps_imports_ret.
  apply keeps_imports_bind; [apply keeps_imports_assign|intros _; apply IH].
Qed.

Lemma keeps_imports_unpack n v : keeps_imports (unpack n v).
Proof.
  destruct v; cbn; try apply keeps_imports_raise;
    case_decide; first [apply keeps_imports_ret|apply keeps_imports_raise].
Qed.

Lemma keeps_imports_assign_tuple names v : keeps_imports (assign_tuple names v).
Proof.
  apply keeps_imports_bind;
    [apply keeps_imports_unpack|intros; apply keeps_imports_assign_each].
Qed.

Lemma keeps_imports_attr_shape v : keeps_imports (attr_shape v).
Proof.
  destruct v; first [apply keeps_imports_ret|apply keeps_imports_raise].
Qed.

Lemma keeps_imports_call w f args kwargs : keeps_imports (call w f args kwargs).
Proof.
  destruct f; try apply keeps_imports_raise.
  intros s. unfold call.
  destruct (String.eqb qualname score_complex_name).
  - destruct (score_complex w (heap s) args kwargs) as [[r|e] h];
      rewrite keeps_imports_finish_call; reflexivity.
  - destruct (if String.eqb qualname sample_complex_name
              then sample_complex w (heap s) args kwargs
              else call_other w qualname (heap s) args kwargs) as [r h].
    rewrite keeps_imports_finish_call. reflexivity.
Qed.

#[export] Hint Resolve keeps_imports_ret keeps_imports_raise keeps_imports_get
  keeps_imports_assign keeps_imports_assign_tuple keeps_imports_attr_shape
  keeps_imports_call : frame.

Ltac no_import :=
  lazymatch goal with
  | |- keeps_imports (mbind _ _) =>
      apply keeps_imports_bind; [no_import|intros ?; no_import]
  | |- _ => auto with frame
  end.


(** *** The model at work on concrete worlds *)

(** A world in which the structure file is missing. *)
Example missing_structure_file_propagates :
  let w := {| find_module := find_module demo_world;
              cuda_is_available := false;
              esm_if1_gvp4_t16_142M_UR50 := esm_if1_gvp4_t16_142M_UR50 demo_world;
              module_to := module_to demo_world;
              score_complex := fun h _ _ =>
                (Raise {| exn_class := "FileNotFoundError";
                          exn_msg := Source.pdb_path |}, h);
              sample_complex := sample_complex demo_world;
              call_other := call_other demo_world |} in
  (run_notebook w (fresh_kernel [])).1 =
    Raise {| exn_class := "FileNotFoundError"; exn_msg := Source.pdb_path |}.
Proof. vm_compute. reflexivity. Qed.

(** The run of [demo_world] completes and displays the summary. *)
Example demo_run_output :
  (run_notebook demo_world (fresh_kernel [])).1 =
    Ok [None;
        Some (VTuple [VSize [8; 124]%nat; VScalar (Float64 2); VScalar (Float64 3)]);
        None].
Proof. vm_compute. reflexivity. Qed.

(** Had the sampling loop been code, its call would have been an event of
    the trace and a file write among the effects. *)
Example a_sampling_call_is_visible :
  let s := (call demo_world (VFunc sample_complex_name)
              [VModel 0; VAlphabet 7; VStr "../pdbs/NbALFA_AF3.pdb";
               VStr "../results/sampled_monomer_esm.fasta"] []
              demo_loaded).2 in
  existsb (fun en => is_call_to sample_complex_name (what en)) (trace s) = true /\
  effects_in caching_environment [ent (EvCall sample_complex_name
       [VModel 0; VAlphabet 7; VStr "../pdbs/NbALFA_AF3.pdb";
        VStr "../results/sampled_monomer_esm.fasta"] []) None] =
    [FileWrite (VStr "../results/sampled_monomer_esm.fasta")].
Proof. split; vm_compute; reflexivity. Qed.

(** A handler would intercept what the notebook lets through. *)
Example try_except_intercepts (e : exn) (s : state) :
  try_except (fun s => (Raise e, s)) (fun _ => mret VNone) s = (Ok VNone, s).
Proof. reflexivity. Qed.

(** ** Properties of the notebook *)

(** C1 — In a kernel where the first cell has bound score_complex, the
    model and the alphabet, if the call of score_complex on the model, the
    alphabet, the fixed structure path and the list of eight literal
    sequences returns, what it returns is a 3-tuple of an entropy tensor,
    a loss scalar and a perplexity scalar; the second cell binds the three
    to entropy, loss and perplexity and its output is the tuple of the
    entropy tensor's shape and the two scalars. *)
Theorem score_cell_output (w : World) (s : state) (m a : value)
    (r : score_result) (h : list nn_module) :
  globals s !! "score_complex" = Some (VFunc score_complex_name) ->
  globals s !! "esmif_model" = Some m ->
  globals s !! "esmif_alphabet" = Some a ->
  score_complex w (heap s) [m; a; VStr Source.pdb_path] scoring_kwargs = (Ok r, h) ->
  length Source.target_seq_list = 8%nat /\
  score_value r = VTuple [VTensor (entropy r); VScalar (loss r); VScalar (perplexity r)] /\
  exists s',
    cell2 w s =
      (Ok (Some (VTuple [VSize (shape (entropy r)); VScalar (loss r);
                         VScalar (perplexity r)])), s') /\
    globals s' !! "entropy" = Some (VTensor (entropy r)) /\
    globals s' !! "loss" = Some (VScalar (loss r)) /\
    globals s' !! "perplexity" = Some (VScalar (perplexity r)) /\
    trace s' =
      trace s ++ [ent (EvCall score_complex_name [m; a; VStr Source.pdb_path]
                         scoring_kwargs) None].
Proof.
  intros Hf Hm Ha Hcall.
  split; [reflexivity|]. split; [reflexivity|].
  destruct s as [g p h0 t]. cbn [globals heap trace] in *.
  assert (wp (cell2 w) (Build_state g p h0 t) (fun rs =>
    rs.1 = Ok (Some (VTuple [VSize (shape (entropy r)); VScalar (loss r);
                             VScalar (perplexity r)])) /\
    globals rs.2 !! "entropy" = Some (VTensor (entropy r)) /\
    globals rs.2 !! "loss" = Some (VScalar (loss r)) /\
    globals rs.2 !! "perplexity" = Some (VScalar (perplexity r)) /\
    trace rs.2 =
      t ++ [ent (EvCall score_complex_name [m; a; VStr Source.pdb_path]
                   scoring_kwargs) None])) as H.
  { unfold cell2, score, show_result.
    repeat wp_step'.
    all: unfold scoring_kwargs in *; cbn [fst snd globals trace].
    - exfalso. congruence.
    - match goal with
      | H : score_complex _ _ _ _ = (Ok ?r0, _) |- _ =>
          assert (r0 = r) as -> by congruence
      end.
      repeat split; solve_lookup. }
  unfold wp in H. destruct (cell2 w _) as [res s']. cbn [fst snd] in H.
  destruct H as (-> & He & Hl & Hp & Ht).
  exists s'. repeat split; assumption.
Qed.

Lemma score_cell_output_witness :
  exists s',
    cell2 demo_world demo_loaded =
      (Ok (Some (VTuple [VSize [8; 124]%nat; VScalar (Float64 2);
                         VScalar (Float64 3)])), s').
Proof.
  destruct (score_cell_output demo_world demo_loaded (VModel 0) (VAlphabet 7)
              demo_result (heap demo_loaded))
    as (_ & _ & s' & Hrun & _);
    [vm_compute; reflexivity ..|].
  exists s'. exact Hrun.
Defined.

(** C2 — A run of the notebook goes through its phases in order: the
    events of any run are an initial part of the setup events (imports,
    search path, device, loading, evaluation mode) followed by the single
    call of score_complex on the fixed structure path and the eight
    literal sequences, and a run that completes has exactly these events;
    in a world where nothing fails the run does complete, with these
    events and the summary of the scoring result as its output; the third
    cell, which holds the sampling loop, consists of comments only and
    contributes nothing. *)
Theorem notebook_phases (w : World) (p : list string) :
  let rs := run_notebook w (fresh_kernel p) in
  (exists alphabet,
      map what (trace rs.2) `prefix_of`
        notebook_events (cuda_is_available w) alphabet /\
      (forall outs, rs.1 = Ok outs ->
         map what (trace rs.2) = notebook_events (cuda_is_available w) alphabet)) /\
  (never_fails w ->
   exists alphabet r,
     rs.1 = Ok [None;
                Some (VTuple [VSize (shape (entropy r)); VScalar (loss r);
                              VScalar (perplexity r)]);
                None] /\
     map what (trace rs.2) = notebook_events (cuda_is_available w) alphabet /\
     Forall (fun en => raised en = None) (trace rs.2)) /\
  (forall c a, count_calls score_complex_name (notebook_events c a) = 1%nat) /\
  length Source.target_seq_list = 8%nat /\
  Source.code_lines Source.cell3_lines = [] /\
  existsb (Source.occurs "# for batch_num in") Source.cell3_lines = true.
Proof.
  intros rs.
  split; [|split; [|split; [intros [] ?; reflexivity|repeat split; reflexivity]]].
  - wp_of rs. wp_run.
    all: cbn [fst snd trace app map what ent].
    all: try (exists 0%Z; split; [eexists; reflexivity | intros ? [=]]).
    all: eexists; split; [eexists; reflexivity | intros ? [=]].
    reflexivity.
  - intros (Hfind & (net0 & a0 & Hload) & Hto & Hscore).
    wp_of rs. wp_run.
    all: cbn [fst snd trace].
    all: try match goal with
             | H : find_module _ _ _ _ = Some _ |- _ =>
                 rewrite Hfind in H; discriminate H
             | H : esm_if1_gvp4_t16_142M_UR50 _ = Raise _ |- _ =>
                 rewrite Hload in H; discriminate H
             | H : module_to _ _ _ = Some _ |- _ =>
                 rewrite Hto in H; discriminate H
             | H : score_complex _ ?h ?args ?kwargs = (Raise _, _) |- _ =>
                 destruct (Hscore h args kwargs) as (r' & h'' & Hok);
                 rewrite Hok in H; discriminate H
             end.
    eexists _, _. split; [reflexivity|]. split; [reflexivity|].
    repeat constructor.
Qed.

Lemma notebook_phases_witness :
  never_fails demo_world /\
  exists r,
    (run_notebook demo_world (fresh_kernel [])).1 =
      Ok [None;
          Some (VTuple [VSize (shape (entropy r)); VScalar (loss r);
                        VScalar (perplexity r)]);
          None] /\
    length (trace (run_notebook demo_world (fresh_kernel [])).2) = 19%nat.
Proof.
  assert (never_fails demo_world) as Hnf.
  { repeat split; try reflexivity.
    - exists demo_net, 7%Z. reflexivity.
    - intros h args kwargs. exists demo_result, h. reflexivity. }
  split; [exact Hnf|].
  destruct (notebook_phases demo_world []) as (_ & Hrun & _).
  destruct (Hrun Hnf) as (alphabet & r & Hres & Hev & _).
  exists r. split; [exact Hres|].
  rewrite <- (length_map what), Hev. reflexivity.
Defined.

(** C3 — sample_complex is imported but never invoked: no event of any
    run is a call of it, no code line of the notebook contains a call of
    it, and every line that spells one is a comment of the third cell. *)
Theorem sample_complex_never_called (w : World) (p : list string) :
  let rs := run_notebook w (fresh_kernel p) in
  Forall (fun en => is_call_to sample_complex_name (what en) = false) (trace rs.2) /\
  In "from models.sample_esmif import sample_complex" (Source.code_lines Source.cell1_lines) /\
  forallb (fun l => negb (Source.occurs "sample_complex(" l)) all_code_lines = true /\
  existsb (Source.occurs "sample_complex(") Source.cell3_lines = true /\
  forallb Source.is_comment_line
    (filter (fun l => Source.occurs "sample_complex(" l = true) Source.cell3_lines) = true.
Proof.
  intros rs.
  split; [|split; [|repeat split; reflexivity]].
  - wp_of rs. wp_run.
    all: cbn [fst snd trace app].
    all: repeat constructor.
  - vm_compute. tauto.
Qed.

(** C4 — No recovery and no retry: an exception raised by an external
    call is the result of the run, unchanged, and the failing event is the
    last one of the trace; a run that ends with an exception ends with the
    one its last event raised; no entry point is gone through twice; and
    no cell contains a try, except, finally or with statement. *)
Theorem errors_propagate_unchanged (w : World) (p : list string) :
  let rs := run_notebook w (fresh_kernel p) in
  (forall en e, en ∈ trace rs.2 -> raised en = Some e ->
      rs.1 = Raise e /\ last (trace rs.2) = Some en) /\
  (forall e, rs.1 = Raise e ->
      exists ev, last (trace rs.2) = Some (ent ev (Some e))) /\
  NoDup (map (fun en => label (what en)) (trace rs.2)) /\
  Forall (fun c => Source.has_handler c = false) Source.cells.
Proof.
  intros rs.
  enough (exists t en, trace rs.2 = t ++ [en] /\
            Forall (fun x => raised x = None) t /\
            NoDup (map (fun en => label (what en)) (t ++ [en])) /\
            match rs.1 with
            | Ok _ => raised en = None
            | Raise e => raised en = Some e
            end) as (t & en & Ht & Hall & Hnd & Hres).
  { rewrite Ht. split; [|split; [|split]].
    - intros x e Hin Hx.
      destruct (only_last_raises t en Hall x e Hin Hx) as [-> Hlast].
      split; [|exact Hlast].
      destruct rs.1; congruence.
    - intros e He. exists (what en). rewrite last_snoc.
      rewrite He in Hres. destruct en; cbn in *; subst; reflexivity.
    - exact Hnd.
    - repeat constructor. }
  wp_of rs. wp_run.
  all: cbn [fst snd trace].
  all: eexists _, _; split; [reflexivity|].
  all: split; [repeat constructor|].
  all: split; [|reflexivity].
  all: apply (bool_decide_unpack _); vm_compute; exact I.
Qed.

(** C5 — The network passed to the scoring call is frozen.  In a world
    where nothing fails the first cell completes; whenever it completes,
    the network the loader returned is in evaluation mode and on the
    selected device, with the weights the loader gave it, before
    score_complex is called; the statements after the call leave the heap
    exactly as the call left it; and, score_complex forwarding through a
    frozen network as the spec has it, at the end of the run esmif_model
    still names that network, in evaluation mode and with the loaded
    weights. *)
Theorem model_frozen_for_scoring (w : World) (p : list string) :
  (never_fails w -> exists s1, cell1 w (fresh_kernel p) = (Ok None, s1)) /\
  forall s1, cell1 w (fresh_kernel p) = (Ok None, s1) ->
  exists net0 alphabet,
    esm_if1_gvp4_t16_142M_UR50 w = Ok (net0, alphabet) /\
    globals s1 !! "esmif_model" = Some (VModel 0) /\
    globals s1 !! "esmif_alphabet" = Some (VAlphabet alphabet) /\
    heap s1 = [ {| training := false;
                   on_device := if cuda_is_available w then Cuda else Cpu;
                   weights := weights net0 |} ] /\
    (forall r h,
        score_complex w (heap s1) (scoring_args alphabet) scoring_kwargs = (r, h) ->
        heap (cell2 w s1).2 = h) /\
    keeps_heap cell3 /\
    (scoring_keeps_network_frozen w ->
     let s2 := ((cell2 w ≫= fun _ => cell3) s1).2 in
     globals s2 !! "esmif_model" = Some (VModel 0) /\
     exists m, heap s2 !! 0%nat = Some m /\
               training m = false /\ weights m = weights net0).
Proof.
  split.
  - intros (Hfind & (net0 & a0 & Hload) & Hto & _).
    assert (wp (cell1 w) (fresh_kernel p) (fun rs => rs.1 = Ok None)) as Hwp.
    { wp_run.
      all: cbn [fst].
      all: try match goal with
               | H : find_module _ _ _ _ = Some _ |- _ =>
                   rewrite Hfind in H; discriminate H
               | H : esm_if1_gvp4_t16_142M_UR50 _ = Raise _ |- _ =>
                   rewrite Hload in H; discriminate H
               | H : module_to _ _ _ = Some _ |- _ =>
                   rewrite Hto in H; discriminate H
               end.
      reflexivity. }
    unfold wp in Hwp. destruct (cell1 w (fresh_kernel p)) as [r s1].
    cbn in Hwp. subst r. exists s1. reflexivity.
  - set (rs := cell1 w (fresh_kernel p)).
    wp_of rs. wp_run.
    all: intros s1 Heq; try discriminate Heq.
    injection Heq as <-.
    eexists _, _. split; [eassumption|].
    split; [reflexivity|]. split; [reflexivity|]. split; [reflexivity|].
    split; [|split; [intros s; reflexivity|]].
    + intros r h Hcall.
      match goal with
      | |- heap (snd (?m ?s)) = h => set (rs := m s)
      end.
      wp_of rs. wp_run.
      all: cbn [snd heap].
      all: match goal with
           | H : score_complex _ _ _ _ = (_, ?h') |- ?h' = _ =>
               pose proof (eq_trans (eq_sym H) Hcall) as E;
               injection E as _ E; exact E
           end.
    + intros Hfrozen.
      match goal with
      | |- context [snd (?m ?s)] => set (rs := m s)
      end.
      wp_of rs. wp_run.
      all: cbn [snd globals heap].
      all: split; [reflexivity|].
      all: match goal with
           | H : score_complex _ _ _ _ = (_, _) |- _ =>
               destruct (Hfrozen _ _ _ _ _ 0%nat _ H eq_refl)
                 as (m' & Hm' & Htr & Hwt)
           end.
      all: exists m'; split; [exact Hm'|split; [exact Htr|exact Hwt]].
Qed.

Lemma model_frozen_for_scoring_witness :
  never_fails gpu_world /\
  scoring_keeps_network_frozen gpu_world /\
  exists s1,
    cell1 gpu_world (fresh_kernel []) = (Ok None, s1) /\
    on_device demo_net = Cpu /\
    heap s1 = [ {| training := false; on_device := Cuda; weights := 142 |} ] /\
    exists m,
      heap ((cell2 gpu_world ≫= fun _ => cell3) s1).2 !! 0%nat = Some m /\
      training m = false /\ weights m = 142%Z.
Proof.
  assert (never_fails gpu_world) as Hnf.
  { repeat split; try reflexivity.
    - exists demo_net, 7%Z. reflexivity.
    - intros h args kwargs. exists demo_result, h. reflexivity. }
  assert (scoring_keeps_network_frozen gpu_world) as Hfr.
  { intros h args kwargs r h' l m Hcall Hl. injection Hcall as _ <-.
    exists m. auto. }
  split; [exact Hnf|]. split; [exact Hfr|].
  destruct (model_frozen_for_scoring gpu_world []) as [Hcompletes Hpost].
  destruct (Hcompletes Hnf) as [s1 Hrun].
  destruct (Hpost s1 Hrun)
    as (net0 & alphabet & Hload & _ & _ & Hheap & _ & _ & Hend).
  pose proof (Hend Hfr) as Hfin. cbv zeta in Hfin.
  destruct Hfin as (_ & m & Hm & Htr & Hwt).
  injection Hload as <- _.
  exists s1. split; [exact Hrun|]. split; [reflexivity|].
  split; [exact Hheap|].
  exists m. split; [exact Hm|]. split; [exact Htr|exact Hwt].
Defined.




(** C8, as stated, fails: in [demo_world], started with a one-entry search
    path, the run ends with a search path that differs from the initial
    one, so process-wide interpreter state has been mutated. *)
Lemma sys_path_is_mutated :
  sys_path (fresh_kernel ["lib"]) = ["lib"] /\
  sys_path (run_notebook demo_world (fresh_kernel ["lib"])).2 = ["lib"; ".."] /\
  sys_path (run_notebook demo_world (fresh_kernel ["lib"])).2
    <> sys_path (fresh_kernel ["lib"]).
Proof.
  split; [reflexivity|]. split; [vm_compute; reflexivity|].
  vm_compute. discriminate.
Qed.

(** C8, amended — The notebook does mutate process-wide interpreter
    state, in its first cell only.  The cell appends the entry [..] to
    sys.path, once: a run of it leaves the path as it was, if it stops
    before that statement, or extended by that one entry, and a completed
    run leaves it extended, having called sys.path.append exactly once
    and executed its twelve import statements.  The second and the third cell
    contain no import statement and no use of sys; from whatever state
    they start, they execute no import and leave sys.path unchanged. *)
Theorem sys_path_extended_once (w : World) (p : list string) :
  let rs := cell1 w (fresh_kernel p) in
  (sys_path rs.2 = p \/ sys_path rs.2 = p ++ [".."]) /\
  (forall outs, rs.1 = Ok outs ->
     sys_path rs.2 = p ++ [".."] /\
     count_calls "sys.path.append" (map what (trace rs.2)) = 1%nat /\
     length (imports_of (trace rs.2)) = 12%nat) /\
  (count_calls "sys.path.append" (map what (trace rs.2)) <= 1)%nat /\
  keeps_sys_path (cell2 w) /\
  keeps_sys_path cell3 /\
  keeps_imports (cell2 w) /\
  keeps_imports cell3 /\
  forallb (fun l => negb (touches_import_system l))
    (Source.code_lines Source.cell2_lines ++ Source.code_lines Source.cell3_lines)
    = true.
Proof.
  intros rs.
  split; [|split; [|split; [|split; [|split; [|split; [|split]]]]]].
  - wp_of rs. wp_run. all: cbn [snd sys_path]; auto.
  - wp_of rs. wp_run.
    all: cbn [fst snd sys_path trace]; intros ? Heq;
      first [discriminate Heq|repeat split; reflexivity].
  - wp_of rs. wp_run.
    all: cbn [snd trace]; vm_compute; lia.
  - unfold cell2, score, show_result. frame.
  - unfold cell3. frame.
  - unfold cell2, score, show_result. no_import.
  - unfold cell3. no_import.
  - reflexivity.
Qed.

(** C9 — Device selection is a total fallback rule: once [torch] is
    imported the statement completes normally whatever
    torch.cuda.is_available() answers, and binds [device] to the CUDA
    device exactly when the answer is true and to the CPU device exactly
    when it is false. *)
Theorem device_fallback_total (w : World) (s : state) :
  globals s !! "torch" = Some (VModule "torch") ->
  exists s',
    select_device w s = (Ok tt, s') /\
    globals s' !! "device" =
      Some (VDevice (if cuda_is_available w then Cuda else Cpu)) /\
    (globals s' !! "device" = Some (VDevice Cuda) <-> cuda_is_available w = true) /\
    (globals s' !! "device" = Some (VDevice Cpu) <-> cuda_is_available w = false).
Proof.
  intros Htorch. destruct s as [g p h t]. cbn in Htorch.
  assert (wp (select_device w) (Build_state g p h t) (fun rs =>
            rs.1 = Ok tt /\
            globals rs.2 !! "device" =
              Some (VDevice (if cuda_is_available w then Cuda else Cpu)))) as H.
  { unfold select_device.
    apply wp_bind. eapply wp_get; [exact Htorch|]. cbv beta iota.
    apply wp_bind. eapply wp_get; [exact Htorch|]. cbv beta iota.
    repeat wp_step.
    split; [reflexivity|]. cbn. apply lookup_insert_eq. }
  unfold wp in H. destruct (select_device w _) as [r s']. cbn in H.
  destruct H as [-> Hd]. exists s'. split; [reflexivity|]. split; [exact Hd|].
  rewrite Hd. destruct (cuda_is_available w); (split; split); intros; congruence.
Qed.

Lemma device_fallback_total_witness :
  globals demo_loaded !! "torch" = Some (VModule "torch") /\
  exists s', select_device demo_world demo_loaded = (Ok tt, s') /\
    globals s' !! "device" = Some (VDevice Cpu).
Proof.
  split; [vm_compute; reflexivity|].
  destruct (device_fallback_total demo_world demo_loaded) as (s' & H1 & H2 & _).
  - vm_compute. reflexivity.
  - exists s'. split; [exact H1|exact H2].
Defined.

(** C10 — Each of the eight literals of [target_seq_list] is 124
    characters long, and the literals at index 0 and index 5 are the same
    string (a duplicate inside the list). *)
Theorem target_seq_list_lengths_and_duplicate :
  length Source.target_seq_list = 8%nat /\
  Forall (fun s => String.length s = 124%nat) Source.target_seq_list /\
  Source.target_seq_list !! 0%nat = Some Source.seq0 /\
  Source.target_seq_list !! 5%nat = Some Source.seq5 /\
  Source.seq0 = Source.seq5.
Proof.
  split; [reflexivity|].
  split; [repeat constructor|].
  repeat split; reflexivity.
Qed.

(** ** Beyond the fresh kernel *)

Import Kernel.

(** *** Rules for a kernel in any state *)

Lemma wp_get_unbound x s Q :
  globals s !! x = None ->
  Q (Raise {| exn_class := "NameError"; exn_msg := x |}, s) -> wp (get x) s Q.
Proof. unfold wp, get. intros ->. auto. Qed.

(** The network just loaded is the last object of the heap. *)
Lemma wp_nn_eval_last m g p h t Q :
  Q (Ok (VModel (length h)),
     Build_state g p
       (h ++ [ {| training := false; on_device := on_device m;
                  weights := weights m |} ])
       (t ++ [ent (EvCall "torch.nn.Module.eval" [VModel (length h)] []) None])) ->
  wp (nn_eval (VModel (length h))) (Build_state g p (h ++ [m]) t) Q.
Proof.
  intros HQ. eapply wp_nn_eval; [apply list_lookup_middle; reflexivity|].
  rewrite insert_app_r_alt by lia.
  replace (length h - length h)%nat with 0%nat by lia. exact HQ.
Qed.

Lemma wp_nn_to_last w dev m g p h t Q :
  (forall e, module_to w m dev = Some e ->
     Q (Raise e, Build_state g p (h ++ [m])
          (t ++ [ent (EvCall "torch.nn.Module.to"
                        [VModel (length h); VDevice dev] []) (Some e)]))) ->
  (module_to w m dev = None ->
     Q (Ok (VModel (length h)),
        Build_state g p
          (h ++ [ {| training := training m; on_device := dev;
                     weights := weights m |} ])
          (t ++ [ent (EvCall "torch.nn.Module.to"
                        [VModel (length h); VDevice dev] []) None]))) ->
  wp (nn_to w (VModel (length h)) (VDevice dev)) (Build_state g p (h ++ [m]) t) Q.
Proof.
  intros Hr Ho. eapply wp_nn_to; [apply list_lookup_middle; reflexivity|exact Hr|].
  intros Hm. rewrite insert_app_r_alt by lia.
  replace (length h - length h)%nat with 0%nat by lia. exact (Ho Hm).
Qed.

(** One step of symbolic execution when part of the state is unknown. *)
Ltac wp_step_any :=
  lazymatch goal with
  | |- wp (get _) _ _ =>
      first [ eapply wp_get; [solve_lookup|]
            | eapply wp_get_unbound; [solve_lookup|] ]; cbv beta iota
  | |- wp (nn_eval _) _ _ => apply wp_nn_eval_last; cbv beta iota
  | |- wp (nn_to _ _ _) _ _ =>
      apply wp_nn_to_last; [intros ? ?|intros ?]; cbv beta iota
  | |- _ => wp_step
  end.

Ltac wp_run_any :=
  unfold run_notebook, cell1, cell2, cell3, select_device, load_model,
    eval_and_move, score, show_result, import;
  repeat wp_step_any.

(** What the first cell leaves when it completes, whatever the kernel it
    is run in. *)
Lemma cell1_completed (w : World) (s : state) (out : option value) (s' : state) :
  cell1 w s = (Ok out, s') ->
  exists net alphabet,
    esm_if1_gvp4_t16_142M_UR50 w = Ok (net, alphabet) /\
    out = None /\
    globals s' =
      setup_bindings (length (heap s)) (cuda_is_available w) alphabet (globals s) /\
    sys_path s' = sys_path s ++ [".."] /\
    heap s' = heap s ++ [frozen (cuda_is_available w) net].
Proof.
  destruct s as [g p h t]. set (rs := cell1 w (Build_state g p h t)).
  revert out s'. wp_of rs. wp_run_any.
  all: intros out s' Heq; try discriminate Heq.
  injection Heq as <- <-.
  eexists _, _. split; [eassumption|]. repeat split.
Qed.

(** *** What a statement does to the namespace *)

Lemma assign_each_ok names vs s :
  exists s', assign_each names vs s = (Ok tt, s') /\
             (forall x, x ∉ names -> globals s' !! x = globals s !! x).
Proof.
  revert vs s. induction names as [|n names IH]; intros vs s.
  - exists s. split; [destruct vs; reflexivity|auto].
  - destruct vs as [|v vs].
    + exists s. split; [reflexivity|auto].
    + destruct (IH vs (set_globals (<[n:=v]> (globals s)) s)) as (s' & Hrun & Hfr).
      exists s'. split; [exact Hrun|].
      intros x Hx. apply not_elem_of_cons in Hx as [Hne Hx].
      rewrite (Hfr x Hx). cbn. apply lookup_insert_ne. congruence.
Qed.

Lemma keeps_globals_finish {A} e (r : outcome A) s :
  globals (finish e r s).2 = globals s.
Proof. destruct r; reflexivity. Qed.

Lemma keeps_globals_get x : keeps_globals (get x).
Proof. intros s. unfold get. destruct (globals s !! x); reflexivity. Qed.

Lemma keeps_globals_unpack n v : keeps_globals (unpack n v).
Proof.
  intros s. unfold unpack.
  destruct v; try reflexivity; case_decide; reflexivity.
Qed.

Lemma keeps_globals_attr_shape v : keeps_globals (attr_shape v).
Proof. intros st. destruct v; reflexivity. Qed.

Lemma keeps_globals_call w f args kwargs : keeps_globals (call w f args kwargs).
Proof.
  intros s. destruct f; try reflexivity.
  unfold call.
  destruct (String.eqb qualname score_complex_name).
  - destruct (score_complex w (heap s) args kwargs) as [[r|e] h];
      rewrite keeps_globals_finish; reflexivity.
  - destruct (if String.eqb qualname sample_complex_name
              then sample_complex w (heap s) args kwargs
              else call_other w qualname (heap s) args kwargs) as [r h].
    rewrite keeps_globals_finish. reflexivity.
Qed.

Lemma binds_only_keeps {A} names (m : M A) : keeps_globals m -> binds_only names m.
Proof. intros H s x _. rewrite H. reflexivity. Qed.

Lemma binds_only_bind {A B} names (m : M A) (f : A -> M B) :
  binds_only names m -> (forall a, binds_only names (f a)) ->
  binds_only names (m ≫= f).
Proof.
  intros Hm Hf s x Hx. unfold mbind, M_bind.
  specialize (Hm s x Hx). destruct (m s) as [[a|e] s1]; cbn in *.
  - rewrite (Hf a s1 x Hx). exact Hm.
  - exact Hm.
Qed.

Lemma binds_only_ret {A} names (a : A) : binds_only names (mret a).
Proof. intros s x _. reflexivity. Qed.

Lemma binds_only_assign names n v : n ∈ names -> binds_only names (assign n v).
Proof.
  intros Hn s x Hx. cbn. apply lookup_insert_ne. intros ->. contradiction.
Qed.

Lemma binds_only_assign_tuple names ns v :
  Forall (fun n => n ∈ names) ns -> binds_only names (assign_tuple ns v).
Proof.
  intros Hsub. rewrite Forall_forall in Hsub. apply binds_only_bind.
  - apply binds_only_keeps, keeps_globals_unpack.
  - intros vs s x Hx.
    destruct (assign_each_ok ns vs s) as (s' & Hrun & Hfr).
    rewrite Hrun. cbn. apply Hfr. intros Hin. apply Hx, Hsub, Hin.
Qed.

Lemma raise_free_bind {A B} (m : M A) (f : A -> M B) :
  keeps_globals m -> (forall a, binds_nothing_on_raise (f a)) ->
  binds_nothing_on_raise (m ≫= f).
Proof.
  intros Hm Hf s e s' Hrun. unfold mbind, M_bind in Hrun.
  specialize (Hm s). destruct (m s) as [[a|e1] s1]; cbn in *.
  - rewrite <- Hm. eapply Hf, Hrun.
  - injection Hrun as _ <-. exact Hm.
Qed.

Lemma assign_tuple_binds_nothing_on_raise ns v :
  binds_nothing_on_raise (assign_tuple ns v).
Proof.
  intros s e s' Hrun. unfold assign_tuple, mbind, M_bind in Hrun.
  pose proof (keeps_globals_unpack (length ns) v s) as Hk.
  destruct (unpack (length ns) v s) as [[vs|e1] s1]; cbn in *.
  - destruct (assign_each_ok ns vs s1) as (s2 & Hok & _).
    rewrite Hok in Hrun. discriminate Hrun.
  - injection Hrun as _ <-. exact Hk.
Qed.

(** Membership in a list given by its elements. *)
Ltac in_list := apply list_elem_of_In; cbn; tauto.


(** ** Further properties of the cells *)

(** X1 — The second cell depends on the first: run in a kernel where
    score_complex is not bound, it binds pdb_path and target_seq_list and
    then stops with a NameError for score_complex, before any external
    call: search path, heap and trace are as before. *)
Theorem scoring_cell_needs_setup (w : World) (s : state) :
  globals s !! "score_complex" = None ->
  cell2 w s =
    (Raise {| exn_class := "NameError"; exn_msg := "score_complex" |},
     set_globals
       (<["target_seq_list" := VList (map VStr Source.target_seq_list)]>
          (<["pdb_path" := VStr Source.pdb_path]> (globals s))) s).
Proof.
  intros Hf. destruct s as [g p h t]. cbn [globals] in Hf.
  set (rs := cell2 w (Build_state g p h t)).
  wp_of rs. wp_run_any. reflexivity.
Qed.

Lemma scoring_cell_needs_setup_witness :
  globals (fresh_kernel []) !! "score_complex" = None /\
  (cell2 demo_world (fresh_kernel [])).1 =
    Raise {| exn_class := "NameError"; exn_msg := "score_complex" |}.
Proof.
  split; [reflexivity|].
  rewrite (scoring_cell_needs_setup demo_world (fresh_kernel []));
    reflexivity.
Defined.

(** X2 — Each completed run of the first cell appends one more [..] entry
    to sys.path, whatever the kernel it runs in: the append is not guarded
    against entries already there, so running the cell twice leaves the
    entry twice. *)
Theorem setup_cell_extends_path_each_time (w : World) (s : state)
    (o1 o2 : option value) (s1 s2 : state) :
  cell1 w s = (Ok o1, s1) ->
  cell1 w s1 = (Ok o2, s2) ->
  sys_path s1 = sys_path s ++ [".."] /\
  sys_path s2 = sys_path s ++ [".."; ".."].
Proof.
  intros H1 H2.
  apply cell1_completed in H1 as (_ & _ & _ & _ & _ & Hp1 & _).
  apply cell1_completed in H2 as (_ & _ & _ & _ & _ & Hp2 & _).
  split; [exact Hp1|]. rewrite Hp2, Hp1, <- app_assoc. reflexivity.
Qed.

Lemma setup_cell_extends_path_each_time_witness :
  sys_path (cell1 demo_world (cell1 demo_world (fresh_kernel ["lib"])).2).2
    = ["lib"; ".."; ".."].
Proof.
  destruct (setup_cell_extends_path_each_time demo_world (fresh_kernel ["lib"])
              None None
              (cell1 demo_world (fresh_kernel ["lib"])).2
              (cell1 demo_world (cell1 demo_world (fresh_kernel ["lib"])).2).2)
    as [_ H]; [vm_compute; reflexivity ..|].
  exact H.
Defined.

(** X3 — A completed run of the first cell, in any kernel, loads a new
    network object, binds esmif_model to it and esmif_alphabet to the
    alphabet the loader returned, leaves that object in evaluation mode on
    the selected device with the loaded weights, and leaves every object
    that existed before untouched. *)
Theorem setup_cell_loads_a_new_network (w : World) (s : state)
    (out : option value) (s' : state) :
  cell1 w s = (Ok out, s') ->
  exists net alphabet,
    esm_if1_gvp4_t16_142M_UR50 w = Ok (net, alphabet) /\
    globals s' !! "esmif_model" = Some (VModel (length (heap s))) /\
    globals s' !! "esmif_alphabet" = Some (VAlphabet alphabet) /\
    heap s' !! length (heap s) = Some (frozen (cuda_is_available w) net) /\
    length (heap s') = S (length (heap s)) /\
    (forall l m, heap s !! l = Some m -> heap s' !! l = Some m).
Proof.
  intros H.
  apply cell1_completed in H as (net & alphabet & Hl & _ & Hg & _ & Hh).
  exists net, alphabet. split; [exact Hl|].
  rewrite Hg, Hh. unfold setup_bindings.
  split; [apply lookup_insert_eq|].
  split; [rewrite lookup_insert_ne by done; apply lookup_insert_eq|].
  split; [apply list_lookup_middle; reflexivity|].
  split; [rewrite length_app; cbn; lia|].
  intros l m Hlm. apply lookup_app_l_Some. exact Hlm.
Qed.

Lemma setup_cell_loads_a_new_network_witness :
  heap demo_loaded !! 0%nat = Some (frozen false demo_net).
Proof.
  destruct (setup_cell_loads_a_new_network demo_world (fresh_kernel [])
              None demo_loaded)
    as (net & alphabet & Hl & _ & _ & Hh & _); [vm_compute; reflexivity|].
  injection Hl as <- _. exact Hh.
Defined.

(** X4 — In any kernel and any world, the second cell rebinds none of the
    fifteen names the first cell assigns: the names it reads
    (score_complex, esmif_model, esmif_alphabet) and all the others keep
    their values, so the cell can be run again without running the first
    cell again. *)
Theorem scoring_cell_keeps_setup_names (w : World) (s : state) (x : string) :
  x ∈ setup_names ->
  globals (cell2 w s).2 !! x = globals s !! x.
Proof.
  intros Hx.
  assert (binds_only scoring_names (cell2 w)) as Hframe.
  { unfold cell2, score, show_result, scoring_names.
    repeat first
      [ apply binds_only_assign_tuple; repeat constructor; in_list
      | apply binds_only_bind; [|intros ?]
      | apply binds_only_ret
      | apply binds_only_assign; in_list
      | apply binds_only_keeps;
        first [ apply keeps_globals_get | apply keeps_globals_call
              | apply keeps_globals_attr_shape ] ]. }
  apply Hframe. intros Hin.
  apply list_elem_of_In in Hx. apply list_elem_of_In in Hin.
  cbn in Hx, Hin.
  repeat (destruct Hx as [<-|Hx]; [intuition discriminate|]).
  exact Hx.
Qed.

Lemma scoring_cell_keeps_setup_names_witness :
  "esmif_model" ∈ setup_names /\
  globals (cell2 demo_world demo_loaded).2 !! "esmif_model" = Some (VModel 0).
Proof.
  assert ("esmif_model" ∈ setup_names) as Hin by in_list.
  split; [exact Hin|].
  rewrite (scoring_cell_keeps_setup_names demo_world demo_loaded "esmif_model" Hin).
  vm_compute. reflexivity.
Defined.

(** X5 — The scoring statement is all or nothing: when it raises, be it
    for an unbound name, inside the call, or while unpacking the result,
    none of entropy, loss, perplexity is rebound; the namespace and the
    search path are exactly as before the statement. *)
Theorem failed_scoring_binds_nothing (w : World) (s : state) (e : exn) (s' : state) :
  score w s = (Raise e, s') ->
  globals s' = globals s /\ sys_path s' = sys_path s.
Proof.
  intros Hrun. split.
  - revert s e s' Hrun. change (binds_nothing_on_raise (score w)).
    unfold score.
    repeat (apply raise_free_bind;
            [first [apply keeps_globals_get|apply keeps_globals_call]|intros ?]).
    apply assign_tuple_binds_nothing_on_raise.
  - assert (keeps_sys_path (score w)) as Hk by (unfold score; frame).
    specialize (Hk s). rewrite Hrun in Hk. exact Hk.
Qed.

Lemma failed_scoring_binds_nothing_witness :
  exists e s',
    score demo_world (fresh_kernel []) = (Raise e, s') /\
    globals s' = globals (fresh_kernel []).
Proof.
  exists {| exn_class := "NameError"; exn_msg := "score_complex" |}, (fresh_kernel []).
  assert (score demo_world (fresh_kernel []) =
            (Raise {| exn_class := "NameError"; exn_msg := "score_complex" |},
             fresh_kernel [])) as H by (vm_compute; reflexivity).
  split; [exact H|].
  exact (proj1 (failed_scoring_binds_nothing _ _ _ _ H)).
Defined.

(** X6 — After a completed run in a fresh kernel each of the fifteen names
    of the first cell and of the five names of the second is bound; numpy
    and pandas are reachable as np and pd and not under their own names;
    and none of the names of the commented-out third cell (output_path,
    redisigned_residues, batch_num) is bound. *)
Theorem namespace_after_run (w : World) (p : list string)
    (outs : list (option value)) (s' : state) :
  run_notebook w (fresh_kernel p) = (Ok outs, s') ->
  Forall (fun x => is_Some (globals s' !! x)) (setup_names ++ scoring_names) /\
  globals s' !! "np" = Some (VModule "numpy") /\
  globals s' !! "pd" = Some (VModule "pandas") /\
  globals s' !! "numpy" = None /\
  globals s' !! "pandas" = None /\
  Forall (fun x => globals s' !! x = None) sampling_names.
Proof.
  intros Hrun.
  assert (wp (run_notebook w) (fresh_kernel p) (fun rs =>
            forall o, rs.1 = Ok o ->
              Forall (fun x => is_Some (globals rs.2 !! x))
                (setup_names ++ scoring_names) /\
              globals rs.2 !! "np" = Some (VModule "numpy") /\
              globals rs.2 !! "pd" = Some (VModule "pandas") /\
              globals rs.2 !! "numpy" = None /\
              globals rs.2 !! "pandas" = None /\
              Forall (fun x => globals rs.2 !! x = None) sampling_names)) as Hwp.
  { wp_run.
    all: cbn [fst snd globals]; intros o Heq; try discriminate Heq.
    split; [repeat constructor; eexists; reflexivity|].
    repeat split; repeat constructor. }
  unfold wp in Hwp. rewrite Hrun in Hwp. exact (Hwp outs eq_refl).
Qed.

Lemma namespace_after_run_witness :
  globals (run_notebook demo_world (fresh_kernel [])).2 !! "numpy" = None /\
  globals (run_notebook demo_world (fresh_kernel [])).2 !! "np"
    = Some (VModule "numpy").
Proof.
  destruct (namespace_after_run demo_world []
              [None; Some (summary demo_result); None]
              (run_notebook demo_world (fresh_kernel [])).2)
    as (_ & Hnp & _ & Hnumpy & _); [vm_compute; reflexivity|].
  split; [exact Hnumpy|exact Hnp].
Defined.

(** X7 — Every import of a run is resolved against the search path current
    at its line: [import os] and [import sys] against the initial path,
    every import below the sys.path.append line, among them the two of the
    models package, against the path extended by [..]; the outcome logged
    for an import is the answer of the import system for that path. *)
Theorem imports_resolved_against_current_path (w : World) (p : list string) :
  let rs := run_notebook w (fresh_kernel p) in
  Forall (fun en =>
            match what en with
            | EvImport m x => raised en = find_module w (resolution_path p m) m x
            | EvCall _ _ _ => True
            end) (trace rs.2).
Proof.
  intros rs. wp_of rs. wp_run.
  all: cbn [snd trace app].
  all: repeat constructor; cbn; symmetry; assumption.
Qed.

(** X8 — Running the second cell twice in a row repeats the same call:
    same model reference, alphabet, path and sequences, the second call
    working on the heap the first one left; the cell then displays the
    summary of the second result and entropy is bound to the second
    tensor. *)
Theorem scoring_cell_rerun (w : World) (s : state) (m a : value)
    (r1 r2 : score_result) (h1 h2 : list nn_module) :
  globals s !! "score_complex" = Some (VFunc score_complex_name) ->
  globals s !! "esmif_model" = Some m ->
  globals s !! "esmif_alphabet" = Some a ->
  score_complex w (heap s) [m; a; VStr Source.pdb_path] scoring_kwargs = (Ok r1, h1) ->
  score_complex w h1 [m; a; VStr Source.pdb_path] scoring_kwargs = (Ok r2, h2) ->
  exists s2,
    (cell2 w ≫= fun _ => cell2 w) s = (Ok (Some (summary r2)), s2) /\
    globals s2 !! "entropy" = Some (VTensor (entropy r2)) /\
    heap s2 = h2 /\
    trace s2 =
      trace s ++
        [ ent (EvCall score_complex_name [m; a; VStr Source.pdb_path] scoring_kwargs) None;
          ent (EvCall score_complex_name [m; a; VStr Source.pdb_path] scoring_kwargs) None ].
Proof.
  intros Hf Hm Ha Hc1 Hc2.
  destruct s as [g p h t]. cbn [globals heap trace] in *.
  assert (wp (cell2 w ≫= fun _ => cell2 w) (Build_state g p h t) (fun rs =>
    rs.1 = Ok (Some (summary r2)) /\
    globals rs.2 !! "entropy" = Some (VTensor (entropy r2)) /\
    heap rs.2 = h2 /\
    trace rs.2 =
      t ++ [ ent (EvCall score_complex_name [m; a; VStr Source.pdb_path] scoring_kwargs) None;
             ent (EvCall score_complex_name [m; a; VStr Source.pdb_path] scoring_kwargs) None ]))
    as Hwp.
  { unfold scoring_kwargs in *. wp_run_any.
    all: cbn [fst snd globals heap trace].
    1, 2: exfalso; congruence.
    split; [unfold summary; congruence|].
    split; [rewrite lookup_insert_ne by done; rewrite lookup_insert_ne by done;
            rewrite lookup_insert_eq; congruence|].
    split; [congruence|].
    rewrite <- app_assoc. reflexivity. }
  unfold wp in Hwp. destruct ((cell2 w ≫= _) _) as [res s2]. cbn [fst snd] in Hwp.
  destruct Hwp as (-> & He & Hh & Ht).
  exists s2. repeat split; assumption.
Qed.

Lemma scoring_cell_rerun_witness :
  exists s2,
    (cell2 demo_world ≫= fun _ => cell2 demo_world) demo_loaded
      = (Ok (Some (summary demo_result)), s2) /\
    length (trace s2) = (length (trace demo_loaded) + 2)%nat.
Proof.
  destruct (scoring_cell_rerun demo_world demo_loaded (VModel 0) (VAlphabet 7)
              demo_result demo_result (heap demo_loaded) (heap demo_loaded))
    as (s2 & Hrun & _ & _ & Ht); [vm_compute; reflexivity ..|].
  exists s2. split; [exact Hrun|].
  rewrite Ht, length_app. reflexivity.
Defined.

(** X9 — When the first cell fails in [.to(device)], the network has
    already been switched to evaluation mode in place: esmif_model stays
    bound to the loaded object (the rebinding of the last line did not
    happen), device is bound, and the object has training off and the
    loaded weights. *)
Theorem failed_move_leaves_network_in_eval_mode (w : World) (p : list string)
    (e : exn) (s' : state) (t : list entry) (args : list value) :
  cell1 w (fresh_kernel p) = (Raise e, s') ->
  trace s' = t ++ [ent (EvCall "torch.nn.Module.to" args []) (Some e)] ->
  exists net alphabet m,
    esm_if1_gvp4_t16_142M_UR50 w = Ok (net, alphabet) /\
    globals s' !! "esmif_model" = Some (VModel 0) /\
    globals s' !! "device" =
      Some (VDevice (if cuda_is_available w then Cuda else Cpu)) /\
    heap s' !! 0%nat = Some m /\
    training m = false /\
    weights m = weights net.
Proof.
  intros Hrun Htrace.
  assert (wp (cell1 w) (fresh_kernel p) (fun rs =>
    rs.1 = Raise e ->
    trace rs.2 = t ++ [ent (EvCall "torch.nn.Module.to" args []) (Some e)] ->
    exists net alphabet m,
      esm_if1_gvp4_t16_142M_UR50 w = Ok (net, alphabet) /\
      globals rs.2 !! "esmif_model" = Some (VModel 0) /\
      globals rs.2 !! "device" =
        Some (VDevice (if cuda_is_available w then Cuda else Cpu)) /\
      heap rs.2 !! 0%nat = Some m /\
      training m = false /\
      weights m = weights net)) as Hwp.
  { wp_run.
    all: cbn [fst snd trace globals heap]; intros Hres Hlast.
    all: try discriminate Hres.
    all: apply app_inj_tail in Hlast as [_ Hlast]; try discriminate Hlast.
    eexists _, _, _. split; [eassumption|].
    repeat split. }
  unfold wp in Hwp. rewrite Hrun in Hwp. exact (Hwp eq_refl Htrace).
Qed.

Lemma failed_move_leaves_network_in_eval_mode_witness :
  exists e s' m,
    cell1 no_device_world (fresh_kernel []) = (Raise e, s') /\
    heap s' !! 0%nat = Some m /\ training m = false.
Proof.
  set (e := {| exn_class := "RuntimeError"; exn_msg := "CUDA error" |}).
  set (rs := cell1 no_device_world (fresh_kernel [])).
  assert (rs = (Raise e, rs.2)) as Hrun by (vm_compute; reflexivity).
  destruct (failed_move_leaves_network_in_eval_mode no_device_world [] e rs.2
              (removelast (trace rs.2)) [VModel 0; VDevice Cuda] Hrun)
    as (net & alphabet & m & _ & _ & _ & Hh & Ht & _); [vm_compute; reflexivity|].
  exists e, rs.2, m. split; [exact Hrun|]. split; [exact Hh|exact Ht].
Defined.

(** X10 — Once [import os] and [import sys] have succeeded, the first cell
    leaves sys.path extended by [..] however it ends, also when a later
    import, the loader or the move to the device fails. *)
Theorem search_path_stays_extended_on_failure (w : World) (p : list string) :
  find_module w p "os" None = None ->
  find_module w p "sys" None = None ->
  sys_path (cell1 w (fresh_kernel p)).2 = p ++ [".."].
Proof.
  intros Hos Hsys. set (rs := cell1 w (fresh_kernel p)).
  wp_of rs. wp_run.
  all: cbn [snd sys_path]; first [reflexivity | congruence].
Qed.

Lemma search_path_stays_extended_on_failure_witness :
  (exists e, (cell1 no_device_world (fresh_kernel ["lib"])).1 = Raise e) /\
  sys_path (cell1 no_device_world (fresh_kernel ["lib"])).2 = ["lib"; ".."].
Proof.
  split; [eexists; vm_compute; reflexivity|].
  rewrite (search_path_stays_extended_on_failure no_device_world ["lib"]);
    reflexivity.
Defined.
